(** * brain.py: cost simulation and the fiscal ledger of [LLMBrain]

    A shallow embedding of [src/brain.py].  Python [int] is [Z], Python
    [str] is [string], Python [float] is IEEE 754 binary64 as specified by
    the Standard Library's [SpecFloat] (round to nearest, ties to even).
    Methods of [LLMBrain] that read or write [self] run in a small state and
    exception monad over the record of the instance's attributes; the Ollama
    client is the external world and is a parameter of every call. *)

From Stdlib Require Import ZArith List String Ascii Bool Lia.
From Stdlib Require Import SpecFloat.
From Stdlib Require Import QArith Qpower Lqa.
Import ListNotations.

Open Scope string_scope.
Open Scope Z_scope.

(** ** Python floats *)

Module PyFloat.

(** binary64: 53 bits of precision, infinities at exponent 1024. *)
Definition prec : Z := 53.
Definition emax : Z := 1024.

Definition float : Type := spec_float.

Definition add : float -> float -> float := SFadd prec emax.
Definition mul : float -> float -> float := SFmul prec emax.
Definition div : float -> float -> float := SFdiv prec emax.

(** [x == y], [x <= y] and [x < y] on floats. *)
Definition eqb : float -> float -> bool := SFeqb.
Definition leb : float -> float -> bool := SFleb.
Definition ltb : float -> float -> bool := SFltb.

(** The literal [0.0]. *)
Definition zero : float := S754_zero false.

(** An [int] as the pair of an integral significand and exponent 0. *)
Definition of_int (z : Z) : float :=
  match z with
  | Z0 => S754_zero false
  | Zpos p => S754_finite false p 0
  | Zneg p => S754_finite true p 0
  end.

(** [a / b] on two [int]s: the quotient of the integers, rounded once.
    [SFdiv] scales the dividend itself, so the significand of [a] is not
    rounded to 53 bits first.  Where the quotient is beyond the range of
    a float Python raises [OverflowError] and [SFdiv] gives an infinity;
    that needs a dividend above 10^308, and the dividends here are token
    counts. *)
Definition int_truediv (a b : Z) : float := div (of_int a) (of_int b).

(** The values the ledger can hold: zero, a positive finite float in
    canonical form, or plus infinity. *)
Definition nonneg (x : float) : bool :=
  match x with
  | S754_zero _ => true
  | S754_infinity s => negb s
  | S754_nan => false
  | S754_finite s m e => negb s && bounded prec emax m e
  end.

End PyFloat.

Definition float : Type := PyFloat.float.

(** ** Module constants *)

(** [COST_PER_1K_TOKENS = 0.015]: the literal denotes the binary64 number
    nearest to 15/1000, which is 0x1.eb851eb851eb8p-7. *)
Definition COST_PER_1K_TOKENS : float :=
  S754_finite false 8646911284551352 (-59).

Definition CHARS_PER_TOKEN : Z := 4.

Definition OLLAMA_HOST : string := "http://localhost:11434".
Definition DEFAULT_MODEL : string := "llama3.1".

(** [len(text)] *)
Definition len (text : string) : Z := Z.of_nat (String.length text).

(** ** [LLMResponse] *)

Record LLMResponse : Type := mkLLMResponse {
  text : string;
  estimated_tokens : Z;
  simulated_cost : float;
  response_model : string
}.

(** ** [LLMBrain.calculate_simulated_cost] *)

Definition calculate_simulated_cost (text : string) : Z * float :=
  let estimated_tokens := Z.max 1 (len text / CHARS_PER_TOKEN) in
  let simulated_cost :=
    PyFloat.mul (PyFloat.int_truediv estimated_tokens 1000) COST_PER_1K_TOKENS in
  (estimated_tokens, simulated_cost).

(** The cost formula of lines 139-140 on its own. *)
Definition cost_of_tokens (tokens : Z) : float :=
  PyFloat.mul (PyFloat.int_truediv tokens 1000) COST_PER_1K_TOKENS.

(** ** The engine behind [self._client] *)

(** What a call of the Ollama client can raise: the subclasses of
    [Exception] the client library and the transport produce.  Signals
    that are not [Exception]s ([KeyboardInterrupt], [SystemExit]) are not
    answers of the engine and are left out. *)
Inductive Exception : Type :=
| ConnectionError (msg : string)
| ResponseError (msg : string) (status_code : Z)
| RequestError (msg : string)
| OtherException (name msg : string).

Record Message : Type := mkMessage {
  role : string;
  content : string
}.

(** The reply of [chat]: [response["message"]["content"]] is the text. *)
Record ChatResponse : Type := mkChatResponse {
  message : Message
}.

(** The external engine at the time of a call: what [chat] answers to a
    model name and a message list, and what [list] answers. *)
Record Client : Type := mkClient {
  chat : string -> list Message -> Exception + ChatResponse;
  list_models : Exception + unit
}.

(** ** [LLMBrain] and the monad its methods run in *)

Record LLMBrain : Type := mkLLMBrain {
  model : string;
  host : string;
  total_tokens_used : Z;
  total_cost_incurred : float
}.

Inductive outcome (A : Type) : Type :=
| Returned (a : A)
| Raised (e : Exception).
Arguments Returned {A} a.
Arguments Raised {A} e.

(** A method body: from the instance before the call to what the call
    yields and the instance after it.  A raised exception keeps every
    assignment made before it. *)
Definition Method (A : Type) : Type := LLMBrain -> outcome A * LLMBrain.

Definition ret {A} (a : A) : Method A := fun self => (Returned a, self).

Definition bind {A B} (c : Method A) (k : A -> Method B) : Method B :=
  fun self =>
    match c self with
    | (Returned a, self') => k a self'
    | (Raised e, self') => (Raised e, self')
    end.

Definition raise {A} (e : Exception) : Method A := fun self => (Raised e, self).

Definition get_self : Method LLMBrain := fun self => (Returned self, self).

(** [self.total_tokens_used = v] and [self.total_cost_incurred = v] *)
Definition set_total_tokens_used (v : Z) : Method unit :=
  fun self =>
    (Returned tt,
     {| model := model self; host := host self;
        total_tokens_used := v;
        total_cost_incurred := total_cost_incurred self |}).

Definition set_total_cost_incurred (v : float) : Method unit :=
  fun self =>
    (Returned tt,
     {| model := model self; host := host self;
        total_tokens_used := total_tokens_used self;
        total_cost_incurred := v |}).

(** A call into the engine: its exception propagates. *)
Definition call {A} (r : Exception + A) : Method A :=
  match r with
  | inl e => raise e
  | inr a => ret a
  end.

(** [try: c  except Exception: return d] *)
Definition try_except {A} (c : Method A) (handler : Exception -> Method A)
  : Method A :=
  fun self =>
    match c self with
    | (Returned a, self') => (Returned a, self')
    | (Raised e, self') => handler e self'
    end.

Declare Scope method_scope.
Delimit Scope method_scope with method.
Notation "x <- c ;; k" := (bind c (fun x => k))
  (at level 100, c at next level, right associativity) : method_scope.
Notation "c ;;; k" := (bind c (fun _ => k))
  (at level 100, right associativity) : method_scope.

(** [LLMBrain.__init__] *)
Definition init (model host : string) : LLMBrain :=
  {| model := model;
     host := host;
     total_tokens_used := 0;
     total_cost_incurred := PyFloat.zero |}.

(** [system_message or ""] *)
Definition or_empty (system_message : option string) : string :=
  match system_message with
  | None => ""
  | Some s => if String.eqb s "" then "" else s
  end.

(** Truth value of an [Optional[str]]: [None] and [""] are false. *)
Definition truthy (system_message : option string) : bool :=
  match system_message with
  | None => false
  | Some s => negb (String.eqb s "")
  end.

(** Lines 181-192: the message list sent to the engine. *)
Definition build_messages (prompt : string) (system_message : option string)
  : list Message :=
  let messages : list Message := [] in
  let messages :=
    match system_message with
    | Some s =>
        if truthy system_message
        then (messages ++ [ {| role := "system"; content := s |} ])%list
        else messages
    | None => messages
    end in
  (messages ++ [ {| role := "user"; content := prompt |} ])%list.

(** Line 195 *)
Definition input_text (prompt : string) (system_message : option string)
  : string :=
  or_empty system_message ++ prompt.

(** ** [LLMBrain.generate_response] *)

Definition generate_response (client : Client)
    (prompt : string) (system_message : option string) : Method LLMResponse :=
  (let messages := build_messages prompt system_message in
   let '(input_tokens, input_cost) :=
     calculate_simulated_cost (input_text prompt system_message) in
   self <- get_self ;;
   response <- call (chat client (model self) messages) ;;
   let response_text := content (message response) in
   let '(output_tokens, output_cost) := calculate_simulated_cost response_text in
   let total_tokens := input_tokens + output_tokens in
   let total_cost := PyFloat.add input_cost output_cost in
   self <- get_self ;;
   set_total_tokens_used (total_tokens_used self + total_tokens) ;;;
   self <- get_self ;;
   set_total_cost_incurred
     (PyFloat.add (total_cost_incurred self) total_cost) ;;;
   self <- get_self ;;
   ret {| text := response_text;
          estimated_tokens := total_tokens;
          simulated_cost := total_cost;
          response_model := model self |})%method.

(** ** [LLMBrain.get_fiscal_summary] *)

Record FiscalSummary : Type := mkFiscalSummary {
  summary_total_tokens_used : Z;
  summary_total_cost_incurred : float;
  summary_cost_per_1k_tokens : float;
  summary_model : string
}.

Definition get_fiscal_summary : Method FiscalSummary :=
  (self <- get_self ;;
   ret {| summary_total_tokens_used := total_tokens_used self;
          summary_total_cost_incurred := total_cost_incurred self;
          summary_cost_per_1k_tokens := COST_PER_1K_TOKENS;
          summary_model := model self |})%method.

(** ** [LLMBrain.check_connection] *)

Definition check_connection (client : Client) : Method bool :=
  try_except
    (call (list_models client) ;;; ret true)%method
    (fun _ => ret false).

(** ** Sequences of calls on one instance *)

Inductive Operation : Type :=
| GenerateResponse (prompt : string) (system_message : option string)
| GetFiscalSummary
| CheckConnection.

(** The instance after a method call, whatever the call yields: a caller
    that catches the exception goes on with the same object. *)
Definition after {A} (c : Method A) (self : LLMBrain) : LLMBrain :=
  snd (c self).

Definition run_op (client : Client) (op : Operation) (self : LLMBrain)
  : LLMBrain :=
  match op with
  | GenerateResponse prompt system_message =>
      after (generate_response client prompt system_message) self
  | GetFiscalSummary => after get_fiscal_summary self
  | CheckConnection => after (check_connection client) self
  end.

(** Each call meets the engine in the state it is in at that moment. *)
Fixpoint run (ops : list (Client * Operation)) (self : LLMBrain) : LLMBrain :=
  match ops with
  | [] => self
  | (client, op) :: rest => run rest (run_op client op self)
  end.

(** The ledger holds a non-negative count and a non-negative float. *)
Definition ledger_ok (self : LLMBrain) : Prop :=
  0 <= total_tokens_used self
  /\ PyFloat.nonneg (total_cost_incurred self) = true.

(** ** Engines used as concrete inputs *)

(** An engine that answers every chat with [reply]. *)
Definition replying (reply : string) : Client :=
  {| chat := fun _ _ =>
       inr {| message := {| role := "assistant"; content := reply |} |};
     list_models := inr tt |}.

(** An engine that cannot be reached. *)
Definition unreachable : Client :=
  {| chat := fun _ _ => inl (ConnectionError "connection refused");
     list_models := inl (ConnectionError "connection refused") |}.

Definition fresh : LLMBrain := init DEFAULT_MODEL OLLAMA_HOST.

(** ** Rounding to binary64, for the proofs

    The vocabulary in which the rounding step of [SpecFloat] is related to
    the rational number being rounded. *)

Module Rounding.

(** [2 ^ e] for any integer [e]. *)
Definition p2 (e : Z) : Q := (2 ^ e)%Q.

Definition fexp (e : Z) : Z := SpecFloat.fexp PyFloat.prec PyFloat.emax e.

(** [v] lies in the slice of [[m * 2^e, (m+1) * 2^e)] that [l] names. *)
Definition inbetween (m e : Z) (l : location) (v : Q) : Prop :=
  match l with
  | loc_Exact => (v == inject_Z m * p2 e)%Q
  | loc_Inexact Lt =>
      (inject_Z m * p2 e < v /\ v < (inject_Z m + (1#2)) * p2 e)%Q
  | loc_Inexact Eq => (v == (inject_Z m + (1#2)) * p2 e)%Q
  | loc_Inexact Gt =>
      ((inject_Z m + (1#2)) * p2 e < v /\ v < (inject_Z m + 1) * p2 e)%Q
  end.

Definition inb_rec (mrs : shr_record) (e : Z) (v : Q) : Prop :=
  0 <= shr_m mrs /\ inbetween (shr_m mrs) e (loc_of_shr_record mrs) v.

Definition finish (sx : bool) (m : Z) (l : location) (E : Z) : spec_float :=
  let '(mrs, e) := shr_fexp PyFloat.prec PyFloat.emax (round_nearest_even m l) E loc_Exact in
  match shr_m mrs with
  | Z0 => S754_zero sx
  | Zpos p =>
      if e <=? PyFloat.emax - PyFloat.prec then S754_finite sx p e else S754_infinity sx
  | Zneg _ => S754_nan
  end.

(** What [finish] builds from the rounded significand [z] at exponent
    [E]: a carry into bit 53 moves to the next exponent. *)
Definition packed (z E : Z) : spec_float :=
  if z =? 0 then S754_zero false
  else if z =? 2 ^ 53 then
    if E + 1 <=? 971 then S754_finite false (2 ^ 52)%positive (E + 1)
    else S754_infinity false
  else
    if E <=? 971 then S754_finite false (Z.to_pos z) E
    else S754_infinity false.

(** [v] has magnitude [g], and [m], [l] locate it on the grid of step
    [2 ^ fexp g]. *)
Definition Repr (v : Q) (g m : Z) (l : location) : Prop :=
  (p2 (g - 1) <= v /\ v < p2 g)%Q /\ 0 <= m /\ inbetween m (fexp g) l v.

(** [r] is what binary64 rounding makes of the positive rational [v]. *)
Definition Rounds (v : Q) (r : spec_float) : Prop :=
  exists g m l, Repr v g m l
                /\ r = packed (round_nearest_even m l) (fexp g).

End Rounding.

(** ** Facts about binary64 rounding

    Rounding a larger positive rational never gives a smaller float; the
    results are canonical; multiplication by a normal constant, division
    of an integer by 1000 and addition of non-negative floats inherit it. *)

Module FloatFacts.

Import Rounding.

(** *** Number of binary digits *)

Lemma digits2_pos_bounds (p : positive) :
  2 ^ (Zpos (digits2_pos p) - 1) <= Zpos p < 2 ^ Zpos (digits2_pos p).
Proof.
  induction p as [p IH | p IH |]; cbn [digits2_pos].
  - rewrite Pos2Z.inj_succ.
    replace (Z.succ (Zpos (digits2_pos p)) - 1) with (Z.succ (Zpos (digits2_pos p) - 1)) by lia.
    rewrite !Z.pow_succ_r by lia. lia.
  - rewrite Pos2Z.inj_succ.
    replace (Z.succ (Zpos (digits2_pos p)) - 1) with (Z.succ (Zpos (digits2_pos p) - 1)) by lia.
    rewrite !Z.pow_succ_r by lia. lia.
  - cbn. lia.
Qed.

Lemma Zdigits2_bounds (m : Z) :
  0 < m -> 0 < Zdigits2 m /\ 2 ^ (Zdigits2 m - 1) <= m < 2 ^ Zdigits2 m.
Proof.
  destruct m as [| p | p]; try lia. intros _. cbn [Zdigits2].
  split; [lia | apply digits2_pos_bounds].
Qed.

Lemma Zdigits2_unique (m d : Z) :
  0 < d -> 2 ^ (d - 1) <= m < 2 ^ d -> Zdigits2 m = d.
Proof.
  intros Hd [Hlo Hhi].
  assert (Hm : 0 < m) by (pose proof (Z.pow_pos_nonneg 2 (d - 1)); lia).
  destruct (Zdigits2_bounds m Hm) as (Hp & Hlo' & Hhi').
  assert (d - 1 < Zdigits2 m) by (apply (Z.pow_lt_mono_r_iff 2); lia).
  assert (Zdigits2 m - 1 < d) by (apply (Z.pow_lt_mono_r_iff 2); lia).
  lia.
Qed.

(** [m < 2^k] bounds the digits by [k]. *)
Lemma Zdigits2_le_of_lt (m k : Z) :
  0 <= m -> 0 <= k -> m < 2 ^ k -> Zdigits2 m <= k.
Proof.
  intros Hm Hk Hlt.
  destruct (Z.eq_dec m 0) as [-> | Hne]; [cbn; lia |].
  destruct (Zdigits2_bounds m ltac:(lia)) as (Hp & Hlo & _).
  assert (Zdigits2 m - 1 < k) by (apply (Z.pow_lt_mono_r_iff 2); lia).
  lia.
Qed.

Lemma Zdigits2_ge_of_le (m k : Z) :
  0 <= k -> 2 ^ k <= m -> k + 1 <= Zdigits2 m.
Proof.
  intros Hk Hle.
  assert (Hm : 0 < m) by (pose proof (Z.pow_pos_nonneg 2 k); lia).
  destruct (Zdigits2_bounds m Hm) as (Hp & _ & Hhi).
  assert (k < Zdigits2 m) by (apply (Z.pow_lt_mono_r_iff 2); lia).
  lia.
Qed.

(** *** Powers of two as rationals *)

Lemma p2_pos (e : Z) : (0 < p2 e)%Q.
Proof. apply Qpower_0_lt. reflexivity. Qed.

Lemma p2_add (a b : Z) : (p2 (a + b) == p2 a * p2 b)%Q.
Proof. apply Qpower_plus. discriminate. Qed.

Lemma p2_succ (e : Z) : (p2 (e + 1) == 2 * p2 e)%Q.
Proof. rewrite p2_add. unfold p2 at 2. cbn. ring. Qed.

Lemma p2_Z (n : Z) : 0 <= n -> (p2 n == inject_Z (2 ^ n))%Q.
Proof. intros H. unfold p2. now rewrite Zpower_Qpower. Qed.

Lemma p2_le (a b : Z) : a <= b -> (p2 a <= p2 b)%Q.
Proof. intros H. apply Qpower_le_compat_l; [exact H | discriminate]. Qed.

Lemma p2_lt_inv (a b : Z) : (p2 a < p2 b)%Q -> a < b.
Proof. intros H. apply (Qpower_lt_compat_l_inv 2); [exact H | reflexivity]. Qed.

(** From a bound on [m * 2^e] to a bound on the integer [m]. *)
Lemma scaled_lt (m k e : Z) :
  0 <= k -> (inject_Z m * p2 e < p2 (k + e))%Q -> m < 2 ^ k.
Proof.
  intros Hk H. rewrite p2_add, (p2_Z k Hk) in H.
  rewrite Zlt_Qlt. pose proof (p2_pos e).
  apply Qmult_lt_r with (z := p2 e); assumption.
Qed.

Lemma scaled_ge (m k e : Z) :
  0 <= k -> (p2 (k + e) < (inject_Z m + 1) * p2 e)%Q -> 2 ^ k <= m.
Proof.
  intros Hk H. rewrite p2_add, (p2_Z k Hk) in H.
  pose proof (p2_pos e).
  apply Qmult_lt_r in H; [| assumption].
  assert (2 ^ k < m + 1); [| lia].
  rewrite Zlt_Qlt, inject_Z_plus. exact H.
Qed.


(** *** Locations and right shifts *)

Lemma fexp_eq (e : Z) : fexp e = Z.max (e - 53) (-1074).
Proof. reflexivity. Qed.

Lemma inbetween_bounds (m e : Z) (l : location) (v : Q) :
  inbetween m e l v ->
  (inject_Z m * p2 e <= v /\ v < (inject_Z m + 1) * p2 e)%Q.
Proof.
  pose proof (p2_pos e) as Ht.
  destruct l as [| []]; cbn; intros H; lra.
Qed.

Lemma loc_of_shr_record_of_loc (m : Z) (l : location) :
  loc_of_shr_record (shr_record_of_loc m l) = l
  /\ shr_m (shr_record_of_loc m l) = m.
Proof. destruct l as [| []]; split; reflexivity. Qed.

Lemma inject_Z_xI (p : positive) :
  (inject_Z (Zpos p~1) == 2 * inject_Z (Zpos p) + 1)%Q.
Proof. rewrite Pos2Z.inj_xI, inject_Z_plus, inject_Z_mult. reflexivity. Qed.

Lemma inject_Z_xO (p : positive) :
  (inject_Z (Zpos p~0) == 2 * inject_Z (Zpos p))%Q.
Proof. rewrite Pos2Z.inj_xO, inject_Z_mult. reflexivity. Qed.

Lemma shr_1_inbetween (mrs : shr_record) (e : Z) (v : Q) :
  0 <= shr_m mrs ->
  inbetween (shr_m mrs) e (loc_of_shr_record mrs) v ->
  0 <= shr_m (shr_1 mrs)
  /\ inbetween (shr_m (shr_1 mrs)) (e + 1) (loc_of_shr_record (shr_1 mrs)) v.
Proof.
  pose proof (p2_pos e) as Ht. pose proof (p2_succ e) as Hs.
  destruct mrs as [m r s]. cbn [shr_m].
  destruct m as [| [p | p |] |]; intros Hm H; try lia;
    destruct r, s; cbn in H |- *; (split; [lia |]).
  all: try rewrite inject_Z_xI in H; try rewrite inject_Z_xO in H.
  all: rewrite ?Hs.
  all: change (inject_Z 0) with 0%Q in *; change (inject_Z 1) with 1%Q in *.
  all: lra.
Qed.

Lemma iter_shr_1_inbetween (v : Q) (n : positive) :
  forall mrs e, inb_rec mrs e v ->
                inb_rec (SpecFloat.iter_pos shr_1 n mrs) (e + Zpos n) v.
Proof.
  assert (step : forall mrs e, inb_rec mrs e v -> inb_rec (shr_1 mrs) (e + 1) v).
  { intros mrs e [H0 H]. now apply shr_1_inbetween. }
  induction n as [n IH | n IH |]; intros mrs e H; cbn [SpecFloat.iter_pos].
  - replace (e + Zpos n~1) with (e + 1 + Zpos n + Zpos n) by lia.
    apply IH, IH, step, H.
  - replace (e + Zpos n~0) with (e + Zpos n + Zpos n) by lia.
    apply IH, IH, H.
  - apply step, H.
Qed.

(** The first shift of [binary_round_aux] brings the exponent to
    [fexp] of the magnitude and keeps the value in its slice. *)
Lemma shr_fexp_inbetween (m e : Z) (l : location) (v : Q) :
  0 <= m -> e <= fexp (Zdigits2 m + e) -> inbetween m e l v ->
  exists m' l',
    shr_fexp PyFloat.prec PyFloat.emax m e l
    = (shr_record_of_loc m' l', fexp (Zdigits2 m + e))
    /\ 0 <= m' /\ inbetween m' (fexp (Zdigits2 m + e)) l' v.
Proof.
  intros Hm Hpre Hin.
  assert (Hrec : inb_rec (shr_record_of_loc m l) e v).
  { unfold inb_rec. destruct (loc_of_shr_record_of_loc m l) as [-> ->]. now split. }
  unfold shr_fexp. fold (fexp (Zdigits2 m + e)).
  set (g := fexp (Zdigits2 m + e)) in *.
  assert (Hrt : forall mrs, shr_record_of_loc (shr_m mrs) (loc_of_shr_record mrs) = mrs).
  { intros [m0 [] []]; reflexivity. }
  destruct (g - e) as [| n | n] eqn:Hn; try lia; cbn [shr].
  - exists m, l. replace g with e by lia. repeat split; assumption.
  - pose proof (iter_shr_1_inbetween v n _ _ Hrec) as [H0 H1].
    exists (shr_m (SpecFloat.iter_pos shr_1 n (shr_record_of_loc m l))),
           (loc_of_shr_record (SpecFloat.iter_pos shr_1 n (shr_record_of_loc m l))).
    rewrite Hrt. replace (e + Zpos n) with g in * by lia.
    repeat split; assumption.
Qed.

(** *** The second half of [binary_round_aux] *)

Lemma binary_round_aux_finish sx m e l m' l' E :
  shr_fexp PyFloat.prec PyFloat.emax m e l = (shr_record_of_loc m' l', E) ->
  binary_round_aux PyFloat.prec PyFloat.emax sx m e l = finish sx m' l' E.
Proof.
  intros H. unfold binary_round_aux, finish. rewrite H.
  destruct (loc_of_shr_record_of_loc m' l') as [-> ->]. reflexivity.
Qed.

Lemma rne_bounds (m : Z) (l : location) :
  m <= round_nearest_even m l <= m + 1.
Proof. destruct l as [| []]; cbn; try destruct (Z.even m); lia. Qed.

Lemma finish_packed (m : Z) (l : location) (E : Z) :
  0 <= round_nearest_even m l <= 2 ^ 53 -> -1074 <= E ->
  finish false m l E = packed (round_nearest_even m l) E.
Proof.
  intros Hz HE. unfold finish, packed, shr_fexp.
  set (z := round_nearest_even m l) in *.
  fold (fexp (Zdigits2 z + E)). rewrite fexp_eq.
  destruct (Z.eqb_spec z (2 ^ 53)) as [-> | Hne].
  - change (Zdigits2 (2 ^ 53)) with 54.
    replace (Z.max (54 + E - 53) (-1074) - E) with 1 by lia.
    cbn. reflexivity.
  - assert (Hd : Zdigits2 z <= 53) by (apply Zdigits2_le_of_lt; lia).
    destruct (Z.max (Zdigits2 z + E - 53) (-1074) - E) as [| n | n] eqn:Hn;
      try lia; cbn [shr shr_record_of_loc shr_m];
      destruct z as [| p | p]; try lia; reflexivity.
Qed.

(** *** Values and their rounded significands *)

Lemma Repr_upper v g m l : Repr v g m l -> m < 2 ^ 53.
Proof.
  intros ([_ Hhi] & Hm & Hin). apply inbetween_bounds in Hin as [Hlo _].
  apply (scaled_lt m 53 (fexp g)); [lia |].
  pose proof (p2_le g (53 + fexp g) ltac:(rewrite fexp_eq; lia)). lra.
Qed.

Lemma Repr_lower v g m l : Repr v g m l -> -1074 < fexp g -> 2 ^ 52 <= m.
Proof.
  intros ([Hlo _] & Hm & Hin) HE. apply inbetween_bounds in Hin as [_ Hhi].
  apply (scaled_ge m 52 (fexp g)); [lia |].
  replace (52 + fexp g) with (g - 1) by (rewrite fexp_eq in *; lia). lra.
Qed.

Lemma Repr_rounded v g m l :
  Repr v g m l -> 0 <= round_nearest_even m l <= 2 ^ 53.
Proof.
  intros H. pose proof (Repr_upper _ _ _ _ H). destruct H as (_ & Hm & _).
  pose proof (rne_bounds m l). lia.
Qed.

Lemma Repr_mag_le v1 g1 m1 l1 v2 g2 m2 l2 :
  Repr v1 g1 m1 l1 -> Repr v2 g2 m2 l2 -> (v1 <= v2)%Q -> g1 <= g2.
Proof.
  intros ([Hlo _] & _) ([_ Hhi] & _) Hv.
  assert (g1 - 1 < g2) by (apply p2_lt_inv; lra). lia.
Qed.

Lemma rne_mono m1 l1 v1 m2 l2 v2 E :
  inbetween m1 E l1 v1 -> inbetween m2 E l2 v2 -> (v1 <= v2)%Q ->
  round_nearest_even m1 l1 <= round_nearest_even m2 l2.
Proof.
  intros H1 H2 Hv. pose proof (p2_pos E) as Ht.
  assert (Hm : m1 <= m2).
  { apply inbetween_bounds in H1 as [Hlo _]. apply inbetween_bounds in H2 as [_ Hhi].
    assert (m1 < m2 + 1); [| lia].
    rewrite Zlt_Qlt, inject_Z_plus.
    apply Qmult_lt_r with (z := p2 E); [assumption |].
    change (inject_Z 1) with 1%Q. lra. }
  pose proof (rne_bounds m1 l1). pose proof (rne_bounds m2 l2).
  destruct (Z.eq_dec m1 m2) as [-> | Hne]; [| lia].
  destruct l1 as [| []], l2 as [| []]; cbn in *;
    try destruct (Z.even m2); first [lia | exfalso; lra].
Qed.

(** *** Comparison of canonical floats *)

Lemma leb_finite (q1 q2 : positive) (e1 e2 : Z) :
  e1 < e2 \/ (e1 = e2 /\ Zpos q1 <= Zpos q2) ->
  SFleb (S754_finite false q1 e1) (S754_finite false q2 e2) = true.
Proof.
  intros H. unfold SFleb, SFcompare.
  destruct (Z.compare_spec e1 e2) as [He | He | He].
  - fold (Pos.compare q1 q2).
    destruct (Pos.compare_spec q1 q2) as [Hp | Hp | Hp]; try reflexivity; lia.
  - reflexivity.
  - lia.
Qed.

Lemma packed_le (z1 E1 z2 E2 : Z) :
  0 <= z1 <= 2 ^ 53 -> 0 <= z2 <= 2 ^ 53 ->
  (E1 = E2 /\ z1 <= z2) \/ (E1 < E2 /\ 2 ^ 52 <= z2) ->
  SFleb (packed z1 E1) (packed z2 E2) = true.
Proof.
  intros H1 H2 H. unfold packed.
  change (2 ^ 53) with 9007199254740992 in *.
  change (2 ^ 52) with 4503599627370496 in *.
  repeat match goal with
         | |- context [Z.eqb ?a ?b] => destruct (Z.eqb_spec a b)
         | |- context [Z.leb ?a ?b] => destruct (Z.leb_spec a b)
         end;
    try reflexivity; try lia;
    apply leb_finite; rewrite ?Z2Pos.id by lia;
    change (Zpos (2 ^ 52)) with 4503599627370496; lia.
Qed.

Theorem Repr_packed_mono v1 g1 m1 l1 v2 g2 m2 l2 :
  Repr v1 g1 m1 l1 -> Repr v2 g2 m2 l2 -> (v1 <= v2)%Q ->
  SFleb (packed (round_nearest_even m1 l1) (fexp g1))
        (packed (round_nearest_even m2 l2) (fexp g2)) = true.
Proof.
  intros R1 R2 Hv.
  pose proof (Repr_mag_le _ _ _ _ _ _ _ _ R1 R2 Hv) as Hg.
  apply packed_le; eauto using Repr_rounded.
  assert (HE : fexp g1 <= fexp g2) by (rewrite !fexp_eq; lia).
  destruct (Z.eq_dec (fexp g1) (fexp g2)) as [Heq | Hne].
  - left. split; [assumption |].
    destruct R1 as (_ & _ & I1), R2 as (_ & _ & I2). rewrite Heq in I1.
    eapply rne_mono; eauto.
  - right. split; [lia |].
    pose proof (Repr_lower _ _ _ _ R2 ltac:(rewrite !fexp_eq in *; lia)).
    pose proof (rne_bounds m2 l2). lia.
Qed.

Lemma bounded_iff (p : positive) (e : Z) :
  bounded PyFloat.prec PyFloat.emax p e = true
  <-> fexp (Zdigits2 (Zpos p) + e) = e /\ e <= 971.
Proof.
  unfold bounded, canonical_mantissa. cbn [Zdigits2]. fold (fexp (Zpos (digits2_pos p) + e)).
  rewrite andb_true_iff, Z.eqb_eq, Z.leb_le. reflexivity.
Qed.

Theorem Repr_packed_valid v g m l :
  Repr v g m l ->
  PyFloat.nonneg (packed (round_nearest_even m l) (fexp g)) = true.
Proof.
  intros R. pose proof (Repr_rounded _ _ _ _ R) as Hz.
  pose proof (rne_bounds m l) as Hb.
  unfold packed.
  set (z := round_nearest_even m l) in *.
  assert (HE : -1074 <= fexp g) by (rewrite fexp_eq; lia).
  destruct (Z.eqb_spec z 0); [reflexivity |].
  destruct (Z.eqb_spec z (2 ^ 53)).
  - destruct (Z.leb_spec (fexp g + 1) 971); [| reflexivity].
    cbn [PyFloat.nonneg negb andb]. apply bounded_iff.
    change (Zdigits2 (Zpos (2 ^ 52))) with 53. rewrite fexp_eq. lia.
  - destruct (Z.leb_spec (fexp g) 971); [| reflexivity].
    cbn [PyFloat.nonneg negb andb]. apply bounded_iff.
    rewrite Z2Pos.id by lia. split; [| assumption].
    assert (Hd : Zdigits2 z <= 53) by (apply Zdigits2_le_of_lt; lia).
    destruct (Z.eq_dec (fexp g) (-1074)) as [Hmin | Hnot].
    + rewrite Hmin, fexp_eq. lia.
    + pose proof (Repr_lower _ _ _ _ R ltac:(lia)).
      pose proof (Zdigits2_ge_of_le z 52 ltac:(lia) ltac:(lia)).
      rewrite (fexp_eq (Zdigits2 z + fexp g)). lia.
Qed.

(** The magnitude of a located value is that of its significand. *)
Lemma mag_bounds (m e : Z) (l : location) (v : Q) :
  0 < m -> inbetween m e l v ->
  (p2 (Zdigits2 m + e - 1) <= v /\ v < p2 (Zdigits2 m + e))%Q.
Proof.
  intros Hm Hin.
  destruct (Zdigits2_bounds m Hm) as (Hd & Hlo & Hhi).
  apply inbetween_bounds in Hin as [Hvlo Hvhi].
  pose proof (p2_pos e) as Ht.
  replace (Zdigits2 m + e - 1) with ((Zdigits2 m - 1) + e) by lia.
  rewrite !p2_add, (p2_Z (Zdigits2 m - 1)), (p2_Z (Zdigits2 m)) by lia.
  rewrite Zle_Qle in Hlo.
  assert (Hhi' : m + 1 <= 2 ^ Zdigits2 m) by lia.
  rewrite Zle_Qle, inject_Z_plus in Hhi'. change (inject_Z 1) with 1%Q in Hhi'.
  split; nra.
Qed.

(** [binary_round_aux] on a positive significand whose exponent is not
    above the target one. *)
Theorem binary_round_aux_Repr (m e : Z) (l : location) (v : Q) :
  0 < m -> e <= fexp (Zdigits2 m + e) -> inbetween m e l v ->
  exists m' l',
    binary_round_aux PyFloat.prec PyFloat.emax false m e l
    = packed (round_nearest_even m' l') (fexp (Zdigits2 m + e))
    /\ Repr v (Zdigits2 m + e) m' l'.
Proof.
  intros Hm Hpre Hin.
  destruct (shr_fexp_inbetween m e l v ltac:(lia) Hpre Hin)
    as (m' & l' & Hs & Hm' & Hin').
  assert (R : Repr v (Zdigits2 m + e) m' l').
  { split; [| split; assumption]. exact (mag_bounds m e l v Hm Hin). }
  exists m', l'. split; [| exact R].
  rewrite (binary_round_aux_finish _ _ _ _ _ _ _ Hs).
  apply finish_packed; [eapply Repr_rounded; eauto | rewrite fexp_eq; lia].
Qed.

(** *** Canonical floats are fixed points of rounding *)

Lemma bounded_facts (q : positive) (e : Z) :
  bounded PyFloat.prec PyFloat.emax q e = true ->
  -1074 <= e <= 971 /\ Zdigits2 (Zpos q) <= 53
  /\ (-1074 < e -> Zdigits2 (Zpos q) = 53)
  /\ fexp (Zdigits2 (Zpos q) + e) = e.
Proof.
  intros H. apply bounded_iff in H as [Hc He].
  pose proof Hc as Hc'. rewrite fexp_eq in Hc'. repeat split; first [lia | exact Hc].
Qed.

Lemma canonical_Repr (q : positive) (e : Z) :
  bounded PyFloat.prec PyFloat.emax q e = true ->
  Repr (inject_Z (Zpos q) * p2 e) (Zdigits2 (Zpos q) + e) (Zpos q) loc_Exact
  /\ packed (round_nearest_even (Zpos q) loc_Exact)
            (fexp (Zdigits2 (Zpos q) + e))
     = S754_finite false q e.
Proof.
  intros H. destruct (bounded_facts q e H) as (He & Hd & _ & Hc).
  split.
  - split; [| split; [lia |]].
    + apply (mag_bounds (Zpos q) e loc_Exact); [lia | cbn; reflexivity].
    + rewrite Hc. cbn. reflexivity.
  - rewrite Hc. cbn [round_nearest_even]. unfold packed.
    destruct (Zdigits2_bounds (Zpos q) ltac:(lia)) as (_ & _ & Hhi).
    assert (Zpos q < 2 ^ 53).
    { eapply Z.lt_le_trans; [exact Hhi |]. apply Z.pow_le_mono_r; lia. }
    destruct (Z.eqb_spec (Zpos q) 0); [lia |].
    destruct (Z.eqb_spec (Zpos q) (2 ^ 53)); [lia |].
    destruct (Z.leb_spec e 971); [reflexivity | lia].
Qed.

Lemma leb_finite_inv (q1 q2 : positive) (e1 e2 : Z) :
  SFleb (S754_finite false q1 e1) (S754_finite false q2 e2) = true ->
  e1 < e2 \/ (e1 = e2 /\ Zpos q1 <= Zpos q2).
Proof.
  unfold SFleb, SFcompare.
  destruct (Z.compare_spec e1 e2) as [He | He | He]; intros H.
  - right. split; [assumption |]. fold (Pos.compare q1 q2) in H.
    destruct (Pos.compare_spec q1 q2) as [Hp | Hp | Hp]; try discriminate; lia.
  - now left.
  - discriminate.
Qed.

(** On canonical floats the order of [SFcompare] is the order of the
    values. *)
Lemma canonical_value_le (q1 q2 : positive) (e1 e2 : Z) :
  bounded PyFloat.prec PyFloat.emax q1 e1 = true -> bounded PyFloat.prec PyFloat.emax q2 e2 = true ->
  SFleb (S754_finite false q1 e1) (S754_finite false q2 e2) = true ->
  (inject_Z (Zpos q1) * p2 e1 <= inject_Z (Zpos q2) * p2 e2)%Q.
Proof.
  intros B1 B2 H.
  destruct (bounded_facts _ _ B1) as (He1 & Hd1 & _ & _).
  destruct (bounded_facts _ _ B2) as (He2 & _ & Hn2 & _).
  pose proof (p2_pos e1) as Ht1. pose proof (p2_pos e2) as Ht2.
  destruct (leb_finite_inv _ _ _ _ H) as [Hlt | [-> Hle]].
  - destruct (Zdigits2_bounds (Zpos q1) ltac:(lia)) as (_ & _ & Hhi).
    destruct (Zdigits2_bounds (Zpos q2) ltac:(lia)) as (_ & Hlo & _).
    rewrite (Hn2 ltac:(lia)) in Hlo. change (53 - 1) with 52 in Hlo.
    assert (Hq1 : Zpos q1 <= 2 ^ 53).
    { apply Z.lt_le_incl. eapply Z.lt_le_trans; [exact Hhi |].
      apply Z.pow_le_mono_r; lia. }
    rewrite Zle_Qle, <- p2_Z in Hq1, Hlo by lia.
    pose proof (p2_le (53 + e1) (52 + e2) ltac:(lia)) as Hp.
    rewrite !p2_add in Hp.
    pose proof (p2_pos 53). pose proof (p2_pos 52).
    nra.
  - rewrite Zle_Qle in Hle. nra.
Qed.

Lemma leb_refl_nonneg (x : spec_float) :
  PyFloat.nonneg x = true -> SFleb x x = true.
Proof.
  destruct x as [s | [] | | [] q e]; cbn; try discriminate; try reflexivity.
  intros _. apply leb_finite. right. split; lia.
Qed.

Lemma leb_trans_nonneg (x y z : spec_float) :
  PyFloat.nonneg x = true -> PyFloat.nonneg y = true ->
  PyFloat.nonneg z = true ->
  SFleb x y = true -> SFleb y z = true -> SFleb x z = true.
Proof.
  destruct x as [sx | [] | | [] qx ex]; try discriminate;
    destruct y as [sy | [] | | [] qy ey]; try discriminate;
    destruct z as [sz | [] | | [] qz ez]; try discriminate;
    intros _ _ _ Hxy Hyz; try reflexivity; try discriminate.
  apply leb_finite_inv in Hxy, Hyz. apply leb_finite. lia.
Qed.

Lemma ltb_zero_le (x y : spec_float) :
  PyFloat.nonneg y = true ->
  SFltb (S754_zero false) x = true -> SFleb x y = true ->
  SFltb (S754_zero false) y = true.
Proof.
  destruct x as [sx | [] | | [] qx ex]; try discriminate;
    destruct y as [sy | [] | | [] qy ey]; try discriminate;
    intros _ Hx Hxy; try reflexivity; try discriminate.
Qed.

(** *** Rounding a positive rational *)

Lemma Rounds_mono v1 r1 v2 r2 :
  Rounds v1 r1 -> Rounds v2 r2 -> (v1 <= v2)%Q -> SFleb r1 r2 = true.
Proof.
  intros (g1 & m1 & l1 & R1 & ->) (g2 & m2 & l2 & R2 & ->) Hv.
  eapply Repr_packed_mono; eauto.
Qed.

Lemma Rounds_valid v r : Rounds v r -> PyFloat.nonneg r = true.
Proof.
  intros (g & m & l & R & ->). eapply Repr_packed_valid; eauto.
Qed.

Lemma Rounds_proper v v' r : (v == v')%Q -> Rounds v r -> Rounds v' r.
Proof.
  intros Heq (g & m & l & ((Hlo & Hhi) & Hm & Hin) & ->).
  exists g, m, l. split; [| reflexivity].
  split; [split; lra |]. split; [assumption |].
  destruct l as [| []]; cbn in *; lra.
Qed.

Lemma Rounds_canonical (q : positive) (e : Z) :
  bounded PyFloat.prec PyFloat.emax q e = true ->
  Rounds (inject_Z (Zpos q) * p2 e) (S754_finite false q e).
Proof.
  intros H. destruct (canonical_Repr q e H) as [R Hp].
  exists (Zdigits2 (Zpos q) + e), (Zpos q), loc_Exact.
  split; [exact R | symmetry; exact Hp].
Qed.

Lemma Rounds_binary_round_aux (m e : Z) (l : location) (v : Q) :
  0 < m -> e <= fexp (Zdigits2 m + e) -> inbetween m e l v ->
  Rounds v (binary_round_aux PyFloat.prec PyFloat.emax false m e l).
Proof.
  intros Hm Hpre Hin.
  destruct (binary_round_aux_Repr m e l v Hm Hpre Hin) as (m' & l' & Hr & R).
  exists (Zdigits2 m + e), m', l'. split; assumption.
Qed.

(** *** Left shifts *)

Lemma iter_xO (m d : positive) :
  Zpos (Pos.iter xO m d) = Zpos m * 2 ^ Zpos d.
Proof.
  rewrite <- Z.shiftl_mul_pow2 by lia. cbn [Z.shiftl].
  apply Pos.iter_swap_gen. reflexivity.
Qed.

Lemma shl_align_spec (m : positive) (e e' : Z) :
  snd (shl_align m e e') = Z.min e e'
  /\ Zpos (fst (shl_align m e e'))
     = Zpos m * 2 ^ (e - snd (shl_align m e e')).
Proof.
  unfold shl_align.
  destruct (e' - e) as [| d | d] eqn:Hd; cbn [fst snd].
  - split; [lia |]. rewrite Z.sub_diag. lia.
  - split; [lia |]. rewrite Z.sub_diag. lia.
  - split; [lia |]. rewrite iter_xO. f_equal. f_equal. lia.
Qed.

Lemma shl_align_value (m : positive) (e e' : Z) :
  (inject_Z (Zpos (fst (shl_align m e e'))) * p2 (snd (shl_align m e e'))
   == inject_Z (Zpos m) * p2 e)%Q.
Proof.
  destruct (shl_align_spec m e e') as [Hs Hm]. rewrite Hm.
  set (e'' := snd (shl_align m e e')) in *.
  assert (Hp : (p2 e == p2 (e - e'') * p2 e'')%Q).
  { rewrite <- p2_add. replace (e - e'' + e'') with e by lia. reflexivity. }
  rewrite inject_Z_mult, <- p2_Z, Hp by lia. ring.
Qed.

Lemma Zdigits2_shift (m k : Z) :
  0 < m -> 0 <= k -> Zdigits2 (m * 2 ^ k) = Zdigits2 m + k.
Proof.
  intros Hm Hk. destruct (Zdigits2_bounds m Hm) as (Hd & Hlo & Hhi).
  apply Zdigits2_unique; [lia |].
  replace (Zdigits2 m + k - 1) with ((Zdigits2 m - 1) + k) by lia.
  rewrite !Z.pow_add_r by lia.
  pose proof (Z.pow_pos_nonneg 2 k ltac:(lia) Hk). nia.
Qed.

Lemma Rounds_binary_round (M : positive) (e : Z) :
  Rounds (inject_Z (Zpos M) * p2 e) (binary_round PyFloat.prec PyFloat.emax false M e).
Proof.
  unfold binary_round.
  pose proof (shl_align_spec M e (SpecFloat.fexp PyFloat.prec PyFloat.emax (Zpos (digits2_pos M) + e)))
    as [Hs Hm].
  pose proof (shl_align_value M e (SpecFloat.fexp PyFloat.prec PyFloat.emax (Zpos (digits2_pos M) + e)))
    as Hv.
  destruct (shl_align M e (SpecFloat.fexp PyFloat.prec PyFloat.emax (Zpos (digits2_pos M) + e)))
    as [mz ez]. cbn [fst snd] in *.
  fold (fexp (Zpos (digits2_pos M) + e)) in Hs.
  change (Zpos (digits2_pos M)) with (Zdigits2 (Zpos M)) in Hs.
  eapply Rounds_proper; [exact Hv |].
  apply Rounds_binary_round_aux; [lia | | cbn; reflexivity].
  rewrite Hm, Zdigits2_shift by lia.
  replace (Zdigits2 (Zpos M) + (e - ez) + ez) with (Zdigits2 (Zpos M) + e) by lia.
  lia.
Qed.

(** *** Multiplication by a normal positive constant *)

Lemma leb_zero_nonneg (s : bool) (r : spec_float) :
  PyFloat.nonneg r = true -> SFleb (S754_zero s) r = true.
Proof. destruct r as [? | [] | | [] ? ?]; try discriminate; reflexivity. Qed.

Lemma leb_nonneg_inf (r : spec_float) :
  PyFloat.nonneg r = true -> SFleb r (S754_infinity false) = true.
Proof. destruct r as [? | [] | | [] ? ?]; try discriminate; reflexivity. Qed.

Lemma Rounds_mul (q qc : positive) (e ec : Z) :
  2 ^ 52 <= Zpos qc ->
  Rounds ((inject_Z (Zpos q) * p2 e) * (inject_Z (Zpos qc) * p2 ec))
         (SFmul PyFloat.prec PyFloat.emax (S754_finite false q e) (S754_finite false qc ec)).
Proof.
  intros Hc. cbn [SFmul xorb].
  apply (Rounds_proper (inject_Z (Zpos (q * qc)) * p2 (e + ec))).
  { rewrite Pos2Z.inj_mul, inject_Z_mult, p2_add. ring. }
  apply Rounds_binary_round_aux; [lia | | cbn; reflexivity].
  assert (53 <= Zdigits2 (Zpos (q * qc))).
  { apply (Zdigits2_ge_of_le _ 52); [lia |]. rewrite Pos2Z.inj_mul. nia. }
  rewrite fexp_eq. lia.
Qed.

Section MulConst.
Variables (qc : positive) (ec : Z).
Hypothesis normal_c : 2 ^ 52 <= Zpos qc.

Lemma mul_const_valid (x : spec_float) :
  PyFloat.nonneg x = true ->
  PyFloat.nonneg (SFmul PyFloat.prec PyFloat.emax x (S754_finite false qc ec)) = true.
Proof.
  destruct x as [sx | [] | | [] q e]; try discriminate; intros Hx;
    try reflexivity.
  eapply Rounds_valid, Rounds_mul, normal_c.
Qed.

Lemma mul_const_mono (x y : spec_float) :
  PyFloat.nonneg x = true -> PyFloat.nonneg y = true ->
  SFleb x y = true ->
  SFleb (SFmul PyFloat.prec PyFloat.emax x (S754_finite false qc ec)) (SFmul PyFloat.prec PyFloat.emax y (S754_finite false qc ec)) = true.
Proof.
  intros Hx Hy Hxy.
  pose proof (mul_const_valid x Hx) as Vx.
  pose proof (mul_const_valid y Hy) as Vy.
  destruct x as [sx | [] | | [] q1 e1]; try discriminate.
  - apply leb_zero_nonneg, Vy.
  - destruct y as [sy | [] | | [] q2 e2]; try discriminate. reflexivity.
  - destruct y as [sy | [] | | [] q2 e2]; try discriminate.
    + apply leb_nonneg_inf, Vx.
    + cbn [PyFloat.nonneg negb andb] in Hx, Hy.
      pose proof (canonical_value_le _ _ _ _ Hx Hy Hxy) as Hv.
      eapply Rounds_mono; [apply Rounds_mul, normal_c .. |].
      assert (0 < inject_Z (Zpos qc) * p2 ec)%Q.
      { pose proof (p2_pos ec). assert (0 < inject_Z (Zpos qc))%Q.
        { change 0%Q with (inject_Z 0). rewrite <- Zlt_Qlt. lia. }
        nra. }
      nra.
Qed.
End MulConst.

(** *** Division of a positive integer by 1000 *)

Lemma div_core_1000 (a : positive) :
  exists q e l,
    SFdiv_core_binary PyFloat.prec PyFloat.emax (Zpos a) 0 1000 0 = (q, e, l)
    /\ 2 ^ 52 <= q
    /\ inbetween q e l (inject_Z (Zpos a) / 1000).
Proof.
  unfold SFdiv_core_binary.
  change (Zdigits2 1000) with 10.
  fold (fexp (Zdigits2 (Zpos a) + 0 - (10 + 0))).
  destruct (Zdigits2_bounds (Zpos a) ltac:(lia)) as (Hd & Hlo & Hhi).
  set (d := Zdigits2 (Zpos a)) in *.
  set (e' := Z.min (fexp (d + 0 - (10 + 0))) (0 - 0)).
  assert (He' : e' = Z.min (d - 63) 0) by (subst e'; rewrite fexp_eq; lia).
  set (s := 0 - 0 - e').
  set (m' := match s with Zpos _ => Z.shiftl (Zpos a) s | 0 => Zpos a | Zneg _ => 0 end).
  assert (Hm' : m' = Zpos a * 2 ^ s /\ 0 <= s).
  { subst m'. destruct s as [| n | n] eqn:Hs; [| | lia].
    - split; [lia | lia].
    - rewrite Z.shiftl_mul_pow2 by lia. split; [reflexivity | lia]. }
  destruct Hm' as [Hm' Hs0].
  assert (Hbig : 2 ^ 62 <= m').
  { rewrite Hm'.
    destruct (Z_le_gt_dec d 63).
    - replace 62 with ((d - 1) + s) by lia. rewrite Z.pow_add_r by lia.
      pose proof (Z.pow_pos_nonneg 2 s ltac:(lia) Hs0). nia.
    - replace s with 0 by lia. rewrite Z.mul_1_r.
      eapply Z.le_trans; [| exact Hlo]. apply Z.pow_le_mono_r; lia. }
  pose proof (Z.div_eucl_eq m' 1000 ltac:(lia)) as Heq.
  pose proof (Z.mod_pos_bound m' 1000 ltac:(lia)) as Hr.
  unfold Z.modulo in Hr.
  destruct (Z.div_eucl m' 1000) as [q r].
  exists q, e', (new_location 1000 r). split; [reflexivity |].
  assert (Hq : 2 ^ 52 <= q).
  { change (2 ^ 62) with 4611686018427387904 in Hbig.
    change (2 ^ 52) with 4503599627370496. lia. }
  split; [exact Hq |].
  (* the value *)
  assert (Hv : (inject_Z (Zpos a) == (1000 * inject_Z q + inject_Z r) * p2 e')%Q).
  { assert (Hone : (p2 s * p2 e' == 1)%Q).
    { rewrite <- p2_add. replace (s + e') with 0 by lia. reflexivity. }
    assert (Hm'' : (inject_Z m' == 1000 * inject_Z q + inject_Z r)%Q).
    { rewrite Heq, inject_Z_plus, inject_Z_mult. reflexivity. }
    rewrite <- Hm'', Hm', inject_Z_mult, <- p2_Z by lia.
    rewrite <- Qmult_assoc, Hone. ring. }
  pose proof (p2_pos e') as Ht.
  assert (Hr0 : (0 <= inject_Z r)%Q)
    by (change 0%Q with (inject_Z 0); rewrite <- Zle_Qle; lia).
  assert (Hr1 : (inject_Z r < 1000)%Q)
    by (change 1000%Q with (inject_Z 1000); rewrite <- Zlt_Qlt; lia).
  unfold new_location. change (Z.even 1000) with true. cbv beta iota.
  unfold new_location_even, inbetween.
  destruct (Z.eqb_spec r 0) as [-> | Hne].
  - change (inject_Z 0) with 0%Q in Hv. rewrite Hv. field.
  - assert (Hr2 : (0 < inject_Z r)%Q)
      by (change 0%Q with (inject_Z 0); rewrite <- Zlt_Qlt; lia).
    destruct (Z.compare_spec (2 * r) 1000) as [Hc | Hc | Hc].
    + assert (inject_Z r == 500)%Q
        by (change 500%Q with (inject_Z 500); apply inject_Z_injective; lia).
      rewrite Hv. setoid_replace (inject_Z r) with 500%Q by assumption. field.
    + assert (inject_Z r < 500)%Q
        by (change 500%Q with (inject_Z 500); rewrite <- Zlt_Qlt; lia).
      rewrite Hv. split.
      * apply Qlt_shift_div_l; [reflexivity | nra].
      * apply Qlt_shift_div_r; [reflexivity | nra].
    + assert (500 < inject_Z r)%Q
        by (change 500%Q with (inject_Z 500); rewrite <- Zlt_Qlt; lia).
      rewrite Hv. split.
      * apply Qlt_shift_div_l; [reflexivity | nra].
      * apply Qlt_shift_div_r; [reflexivity | nra].
Qed.

Lemma Rounds_div_1000 (a : positive) :
  Rounds (inject_Z (Zpos a) / 1000)
         (SFdiv PyFloat.prec PyFloat.emax (S754_finite false a 0) (S754_finite false 1000 0)).
Proof.
  destruct (div_core_1000 a) as (q & e & l & Hcore & Hq & Hin).
  cbn [SFdiv xorb]. rewrite Hcore.
  apply Rounds_binary_round_aux; [| | exact Hin].
  - pose proof (Z.pow_pos_nonneg 2 52). lia.
  - pose proof (Zdigits2_ge_of_le q 52 ltac:(lia) Hq). rewrite fexp_eq. lia.
Qed.

(** *** Adding a non-negative float never decreases *)

Lemma Rounds_add (qx qc : positive) (ex ec : Z) :
  Rounds (inject_Z (Zpos qx) * p2 ex + inject_Z (Zpos qc) * p2 ec)
         (SFadd PyFloat.prec PyFloat.emax (S754_finite false qx ex) (S754_finite false qc ec)).
Proof.
  cbn [SFadd cond_Zopp].
  set (ez := Z.min ex ec).
  pose proof (shl_align_spec qx ex ez) as [Hsx _].
  pose proof (shl_align_spec qc ec ez) as [Hsc _].
  pose proof (shl_align_value qx ex ez) as Hvx.
  pose proof (shl_align_value qc ec ez) as Hvc.
  replace (snd (shl_align qx ex ez)) with ez in Hvx by lia.
  replace (snd (shl_align qc ec ez)) with ez in Hvc by lia.
  set (mx := fst (shl_align qx ex ez)) in *.
  set (mc := fst (shl_align qc ec ez)) in *.
  change (Zpos mx + Zpos mc) with (Zpos (mx + mc)).
  cbn [binary_normalize].
  eapply Rounds_proper; [| apply Rounds_binary_round].
  rewrite Pos2Z.inj_add, inject_Z_plus, <- Hvx, <- Hvc. ring.
Qed.

Theorem add_nonneg_valid (x c : spec_float) :
  PyFloat.nonneg x = true -> PyFloat.nonneg c = true ->
  PyFloat.nonneg (SFadd PyFloat.prec PyFloat.emax x c) = true.
Proof.
  destruct x as [sx | [] | | [] qx ex]; try discriminate;
    destruct c as [sc | [] | | [] qc ec]; try discriminate;
    intros Hx Hc; try assumption; try reflexivity.
  - destruct sx, sc; reflexivity.
  - eapply Rounds_valid, Rounds_add.
Qed.

Theorem add_nonneg_le (x c : spec_float) :
  PyFloat.nonneg x = true -> PyFloat.nonneg c = true ->
  SFleb x (SFadd PyFloat.prec PyFloat.emax x c) = true.
Proof.
  destruct x as [sx | [] | | [] qx ex]; try discriminate;
    destruct c as [sc | [] | | [] qc ec]; try discriminate;
    intros Hx Hc; try reflexivity.
  - destruct sx, sc; reflexivity.
  - cbn [SFadd]. now apply leb_refl_nonneg.
  - cbn [PyFloat.nonneg negb andb] in Hx.
    eapply Rounds_mono; [apply Rounds_canonical, Hx | apply Rounds_add |].
    pose proof (p2_pos ec).
    assert (0 < inject_Z (Zpos qc))%Q
      by (change 0%Q with (inject_Z 0); rewrite <- Zlt_Qlt; lia).
    nra.
Qed.

End FloatFacts.

(** ** The cost formula on token counts *)

Lemma calculate_simulated_cost_eq (s : string) :
  calculate_simulated_cost s
  = (Z.max 1 (len s / CHARS_PER_TOKEN),
     cost_of_tokens (Z.max 1 (len s / CHARS_PER_TOKEN))).
Proof. reflexivity. Qed.

Lemma tokens_ge_1 (s : string) : 1 <= fst (calculate_simulated_cost s).
Proof. cbn [calculate_simulated_cost fst]. lia. Qed.

Lemma COST_PER_1K_TOKENS_nearest :
  COST_PER_1K_TOKENS = PyFloat.int_truediv 15 1000.
Proof. vm_compute. reflexivity. Qed.

Lemma int_truediv_Rounds (a : positive) :
  Rounding.Rounds (inject_Z (Zpos a) / 1000) (PyFloat.int_truediv (Zpos a) 1000).
Proof. apply FloatFacts.Rounds_div_1000. Qed.

Lemma cost_of_tokens_nonneg (a : Z) :
  1 <= a -> PyFloat.nonneg (cost_of_tokens a) = true.
Proof.
  intros Ha. destruct a as [| a | a]; try lia.
  unfold cost_of_tokens, COST_PER_1K_TOKENS, PyFloat.mul.
  apply FloatFacts.mul_const_valid; [vm_compute; discriminate |].
  eapply FloatFacts.Rounds_valid, int_truediv_Rounds.
Qed.

Lemma cost_of_tokens_mono (a b : Z) :
  1 <= a -> a <= b ->
  PyFloat.leb (cost_of_tokens a) (cost_of_tokens b) = true.
Proof.
  intros Ha Hab.
  destruct a as [| a | a]; try lia. destruct b as [| b | b]; try lia.
  unfold cost_of_tokens, COST_PER_1K_TOKENS, PyFloat.mul, PyFloat.leb.
  apply FloatFacts.mul_const_mono; [vm_compute; discriminate | | |].
  - eapply FloatFacts.Rounds_valid, int_truediv_Rounds.
  - eapply FloatFacts.Rounds_valid, int_truediv_Rounds.
  - eapply FloatFacts.Rounds_mono; [apply int_truediv_Rounds .. |].
    apply Qmult_le_compat_r; [| discriminate].
    rewrite <- Zle_Qle. exact Hab.
Qed.

Lemma cost_of_tokens_pos (a : Z) :
  1 <= a -> PyFloat.ltb PyFloat.zero (cost_of_tokens a) = true.
Proof.
  intros Ha.
  apply (FloatFacts.ltb_zero_le (cost_of_tokens 1)).
  - now apply cost_of_tokens_nonneg.
  - vm_compute. reflexivity.
  - apply cost_of_tokens_mono; lia.
Qed.

(** The docstring's example and the boundary cases of the estimate. *)
Example hello_world_tokens :
  fst (calculate_simulated_cost "Hello world!") = 3
  /\ fst (calculate_simulated_cost "") = 1
  /\ fst (calculate_simulated_cost "abc") = 1
  /\ fst (calculate_simulated_cost "abcdefgh") = 2.
Proof. repeat split. Qed.

(** ** What [generate_response] does, in one equation *)

Lemma generate_response_eq client prompt system_message self :
  generate_response client prompt system_message self
  = match chat client (model self) (build_messages prompt system_message) with
    | inl e => (Raised e, self)
    | inr response =>
        let response_text := content (message response) in
        let input := calculate_simulated_cost (input_text prompt system_message) in
        let output := calculate_simulated_cost response_text in
        let total_tokens := fst input + fst output in
        let total_cost := PyFloat.add (snd input) (snd output) in
        (Returned {| text := response_text;
                     estimated_tokens := total_tokens;
                     simulated_cost := total_cost;
                     response_model := model self |},
         {| model := model self;
            host := host self;
            total_tokens_used := total_tokens_used self + total_tokens;
            total_cost_incurred :=
              PyFloat.add (total_cost_incurred self) total_cost |})
    end.
Proof.
  unfold generate_response, bind, get_self, call.
  cbn [calculate_simulated_cost].
  destruct (chat client (model self) (build_messages prompt system_message));
    reflexivity.
Qed.

(** A returned result comes from an engine reply and carries the sums. *)
Lemma generate_response_returned client prompt system_message self r self' :
  generate_response client prompt system_message self = (Returned r, self') ->
  exists response,
    chat client (model self) (build_messages prompt system_message)
    = inr response
    /\ text r = content (message response)
    /\ estimated_tokens r
       = fst (calculate_simulated_cost (input_text prompt system_message))
         + fst (calculate_simulated_cost (text r))
    /\ simulated_cost r
       = PyFloat.add
           (snd (calculate_simulated_cost (input_text prompt system_message)))
           (snd (calculate_simulated_cost (text r)))
    /\ total_tokens_used self' = total_tokens_used self + estimated_tokens r
    /\ total_cost_incurred self'
       = PyFloat.add (total_cost_incurred self) (simulated_cost r).
Proof.
  rewrite generate_response_eq.
  destruct (chat client (model self) (build_messages prompt system_message))
    as [e | response]; [discriminate |].
  cbv zeta. intros H. injection H as <- <-. cbn.
  exists response. repeat split; reflexivity.
Qed.

Lemma simulated_cost_nonneg (s : string) :
  PyFloat.nonneg (snd (calculate_simulated_cost s)) = true.
Proof.
  rewrite calculate_simulated_cost_eq. cbn [snd].
  apply cost_of_tokens_nonneg. lia.
Qed.

Lemma call_cost_nonneg (s t : string) :
  PyFloat.nonneg
    (PyFloat.add (snd (calculate_simulated_cost s))
                 (snd (calculate_simulated_cost t))) = true.
Proof.
  apply FloatFacts.add_nonneg_valid; apply simulated_cost_nonneg.
Qed.

(** ** One step of a call sequence *)

Lemma run_op_ledger client op self :
  ledger_ok self ->
  ledger_ok (run_op client op self)
  /\ total_tokens_used self <= total_tokens_used (run_op client op self)
  /\ PyFloat.leb (total_cost_incurred self)
                 (total_cost_incurred (run_op client op self)) = true.
Proof.
  intros [Htok Hcost].
  assert (Hsame : ledger_ok self
                  /\ total_tokens_used self <= total_tokens_used self
                  /\ PyFloat.leb (total_cost_incurred self)
                                 (total_cost_incurred self) = true).
  { repeat split; try assumption; try lia.
    now apply FloatFacts.leb_refl_nonneg. }
  destruct op as [prompt system_message | |]; unfold run_op, after.
  - rewrite generate_response_eq.
    destruct (chat client (model self) (build_messages prompt system_message))
      as [e | response]; [exact Hsame |].
    cbv zeta. cbn [snd total_tokens_used total_cost_incurred].
    pose proof (tokens_ge_1 (input_text prompt system_message)).
    pose proof (tokens_ge_1 (content (message response))).
    pose proof (call_cost_nonneg (input_text prompt system_message)
                                 (content (message response))) as Hc.
    split; [split |]; cbn [total_tokens_used total_cost_incurred].
    + lia.
    + now apply FloatFacts.add_nonneg_valid.
    + split; [lia |]. now apply FloatFacts.add_nonneg_le.
  - exact Hsame.
  - unfold check_connection, try_except, bind, call.
    destruct (list_models client); exact Hsame.
Qed.

Lemma run_ledger ops : forall self,
  ledger_ok self ->
  ledger_ok (run ops self)
  /\ total_tokens_used self <= total_tokens_used (run ops self)
  /\ PyFloat.leb (total_cost_incurred self)
                 (total_cost_incurred (run ops self)) = true.
Proof.
  induction ops as [| [client op] rest IH]; intros self Hok; cbn [run].
  - destruct Hok as [Htok Hcost]. repeat split; try assumption; try lia.
    now apply FloatFacts.leb_refl_nonneg.
  - destruct (run_op_ledger client op self Hok) as (Hok1 & Ht1 & Hc1).
    destruct (IH _ Hok1) as (Hok2 & Ht2 & Hc2).
    split; [exact Hok2 |]. split; [lia |].
    destruct Hok as [_ Hn0], Hok1 as [_ Hn1], Hok2 as [_ Hn2].
    exact (FloatFacts.leb_trans_nonneg _ _ _ Hn0 Hn1 Hn2 Hc1 Hc2).
Qed.

Lemma init_ledger_ok model host : ledger_ok (init model host).
Proof. split; cbn; [lia | reflexivity]. Qed.

(** ** The claims *)

(** C1 (counterexample): for the empty string the estimator returns the
    float [(1 / 1000) * 0.015], which is not the float [0.015 / 1000]; the
    two differ in the last bit of the significand. *)
Lemma C1_empty_cost_is_not_rate_over_1000 :
  fst (calculate_simulated_cost "") = 1
  /\ PyFloat.eqb (snd (calculate_simulated_cost ""))
                 (PyFloat.div COST_PER_1K_TOKENS (PyFloat.of_int 1000))
     = false
  /\ snd (calculate_simulated_cost "")
     = S754_finite false 8854437155380585 (-69)
  /\ PyFloat.div COST_PER_1K_TOKENS (PyFloat.of_int 1000)
     = S754_finite false 8854437155380584 (-69).
Proof. vm_compute. repeat split; reflexivity. Qed.

(** C1 (amended): for every string [s] the token count returned by
    [calculate_simulated_cost] is [max(1, len(s) // 4)]; for the empty
    string it is exactly 1 and the cost is [(1 / 1000) * COST_PER_1K_TOKENS]
    evaluated in binary64. *)
Theorem C1_estimated_tokens (s : string) :
  fst (calculate_simulated_cost s) = Z.max 1 (len s / 4)
  /\ calculate_simulated_cost ""
     = (1, PyFloat.mul (PyFloat.int_truediv 1 1000) COST_PER_1K_TOKENS).
Proof. split; reflexivity. Qed.

(** C2: after a call of [generate_response] that returns, the ledger's
    [total_tokens_used] is its value before the call plus the result's
    [estimated_tokens], and [total_cost_incurred] is its value before the
    call plus (float addition) the result's [simulated_cost]. *)
Theorem C2_ledger_additive client prompt system_message self r self' :
  generate_response client prompt system_message self = (Returned r, self') ->
  total_tokens_used self' = total_tokens_used self + estimated_tokens r
  /\ total_cost_incurred self'
     = PyFloat.add (total_cost_incurred self) (simulated_cost r).
Proof.
  intros H.
  destruct (generate_response_returned _ _ _ _ _ _ H)
    as (response & _ & _ & _ & _ & Htok & Hcost).
  split; assumption.
Qed.

Lemma C2_ledger_additive_witness :
  generate_response (replying "abcdefgh") "What is EC2?" (Some "Be concise.")
                    fresh
  = (Returned {| text := "abcdefgh"; estimated_tokens := 7;
                 simulated_cost := PyFloat.add (cost_of_tokens 5)
                                               (cost_of_tokens 2);
                 response_model := DEFAULT_MODEL |},
     {| model := DEFAULT_MODEL; host := OLLAMA_HOST;
        total_tokens_used := 7;
        total_cost_incurred :=
          PyFloat.add PyFloat.zero
                      (PyFloat.add (cost_of_tokens 5) (cost_of_tokens 2)) |})
  /\ (7 = 0 + 7
      /\ PyFloat.add PyFloat.zero
                     (PyFloat.add (cost_of_tokens 5) (cost_of_tokens 2))
         = PyFloat.add PyFloat.zero
                       (PyFloat.add (cost_of_tokens 5) (cost_of_tokens 2))).
Proof.
  split; [reflexivity |].
  exact (C2_ledger_additive (replying "abcdefgh") "What is EC2?"
           (Some "Be concise.") fresh _ _ eq_refl).
Defined.

(** C3: when the engine's [chat] raises, [generate_response] raises that
    same exception to its caller and the instance, with both ledger fields,
    is exactly as before the call; a call that raises at all has left the
    instance unchanged, so the ledger only moves when the engine answered. *)
Theorem C3_failure_leaves_ledger client prompt system_message self e :
  chat client (model self) (build_messages prompt system_message) = inl e ->
  generate_response client prompt system_message self = (Raised e, self)
  /\ (forall e' self',
        generate_response client prompt system_message self
        = (Raised e', self') ->
        total_tokens_used self' = total_tokens_used self
        /\ total_cost_incurred self' = total_cost_incurred self).
Proof.
  intros H. rewrite generate_response_eq, H.
  split; [reflexivity |]. intros e' self' H'. injection H' as _ <-.
  split; reflexivity.
Qed.

Lemma C3_failure_leaves_ledger_witness :
  chat unreachable (model fresh) (build_messages "What is EC2?" None)
  = inl (ConnectionError "connection refused")
  /\ generate_response unreachable "What is EC2?" None fresh
     = (Raised (ConnectionError "connection refused"), fresh).
Proof.
  split; [reflexivity |].
  exact (proj1 (C3_failure_leaves_ledger unreachable "What is EC2?" None fresh
                  (ConnectionError "connection refused") eq_refl)).
Defined.

(** C4 (counterexample): with an empty prompt (1 token) and an 8-character
    reply (2 tokens) the result carries 3 tokens and the cost
    [(1/1000)*0.015 + (2/1000)*0.015], which is not the float
    [(3/1000)*0.015]. *)
Lemma C4_sum_of_costs_is_not_cost_of_sum :
  exists r self',
    generate_response (replying "abcdefgh") "" None fresh = (Returned r, self')
    /\ estimated_tokens r = 3
    /\ PyFloat.eqb (simulated_cost r)
                   (PyFloat.mul (PyFloat.int_truediv (estimated_tokens r) 1000)
                                COST_PER_1K_TOKENS)
       = false.
Proof.
  eexists. eexists. rewrite generate_response_eq. cbn [chat replying].
  cbv zeta. split; [reflexivity |].
  split; [reflexivity | vm_compute; reflexivity].
Qed.

(** C4 (amended): the estimator returns exactly
    [(tokens / 1000) * COST_PER_1K_TOKENS] for its own token count, with
    [COST_PER_1K_TOKENS] the constant 0.015; a result of
    [generate_response] has [estimated_tokens] equal to the sum of the
    input-side and output-side token estimates and [simulated_cost] equal
    to the float sum of the two sides' costs, each
    [(side tokens / 1000) * COST_PER_1K_TOKENS]. *)
Theorem C4_cost_is_sum_of_side_costs client prompt system_message self r self' :
  generate_response client prompt system_message self = (Returned r, self') ->
  let input_tokens :=
    fst (calculate_simulated_cost (input_text prompt system_message)) in
  let output_tokens := fst (calculate_simulated_cost (text r)) in
  estimated_tokens r = input_tokens + output_tokens
  /\ simulated_cost r
     = PyFloat.add
         (PyFloat.mul (PyFloat.int_truediv input_tokens 1000)
                      COST_PER_1K_TOKENS)
         (PyFloat.mul (PyFloat.int_truediv output_tokens 1000)
                      COST_PER_1K_TOKENS)
  /\ (forall s,
        snd (calculate_simulated_cost s)
        = PyFloat.mul
            (PyFloat.int_truediv (fst (calculate_simulated_cost s)) 1000)
            COST_PER_1K_TOKENS)
  /\ COST_PER_1K_TOKENS = PyFloat.int_truediv 15 1000.
Proof.
  intros H.
  destruct (generate_response_returned _ _ _ _ _ _ H)
    as (response & _ & _ & Htok & Hcost & _).
  cbv zeta. split; [exact Htok |]. split; [exact Hcost |].
  split; [intros s; reflexivity | apply COST_PER_1K_TOKENS_nearest].
Qed.

Lemma C4_cost_is_sum_of_side_costs_witness :
  generate_response (replying "abcdefgh") "" None fresh
  = (Returned {| text := "abcdefgh"; estimated_tokens := 3;
                 simulated_cost := PyFloat.add (cost_of_tokens 1)
                                               (cost_of_tokens 2);
                 response_model := DEFAULT_MODEL |},
     {| model := DEFAULT_MODEL; host := OLLAMA_HOST;
        total_tokens_used := 3;
        total_cost_incurred :=
          PyFloat.add PyFloat.zero
                      (PyFloat.add (cost_of_tokens 1) (cost_of_tokens 2)) |})
  /\ 3 = 1 + 2.
Proof.
  split; [reflexivity |].
  exact (proj1 (C4_cost_is_sum_of_side_costs (replying "abcdefgh") "" None
                  fresh _ _ eq_refl)).
Defined.

(** C5: the input side of [generate_response] is the estimator run over
    [(system_message or "") + prompt]; with no [system_message] it is the
    estimator run over the prompt alone. *)
Theorem C5_input_cost_from_concatenation
    client prompt system_message self r self' :
  generate_response client prompt system_message self = (Returned r, self') ->
  input_text prompt system_message = or_empty system_message ++ prompt
  /\ estimated_tokens r
     = fst (calculate_simulated_cost (or_empty system_message ++ prompt))
       + fst (calculate_simulated_cost (text r))
  /\ simulated_cost r
     = PyFloat.add
         (snd (calculate_simulated_cost (or_empty system_message ++ prompt)))
         (snd (calculate_simulated_cost (text r)))
  /\ (system_message = None ->
      estimated_tokens r
      = fst (calculate_simulated_cost prompt)
        + fst (calculate_simulated_cost (text r))
      /\ simulated_cost r
         = PyFloat.add (snd (calculate_simulated_cost prompt))
                       (snd (calculate_simulated_cost (text r)))).
Proof.
  intros H.
  destruct (generate_response_returned _ _ _ _ _ _ H)
    as (response & _ & _ & Htok & Hcost & _).
  unfold input_text in Htok, Hcost.
  split; [reflexivity |]. split; [exact Htok |]. split; [exact Hcost |].
  intros ->. cbn [or_empty String.append] in Htok, Hcost.
  split; assumption.
Qed.

Lemma C5_input_cost_from_concatenation_witness :
  generate_response (replying "abcdefgh") "What is EC2?" (Some "Be concise.")
                    fresh
  = (Returned {| text := "abcdefgh"; estimated_tokens := 7;
                 simulated_cost := PyFloat.add (cost_of_tokens 5)
                                               (cost_of_tokens 2);
                 response_model := DEFAULT_MODEL |},
     {| model := DEFAULT_MODEL; host := OLLAMA_HOST;
        total_tokens_used := 7;
        total_cost_incurred :=
          PyFloat.add PyFloat.zero
                      (PyFloat.add (cost_of_tokens 5) (cost_of_tokens 2)) |})
  /\ 7 = fst (calculate_simulated_cost "Be concise.What is EC2?")
         + fst (calculate_simulated_cost "abcdefgh").
Proof.
  split; [reflexivity |].
  exact (proj1 (proj2 (C5_input_cost_from_concatenation (replying "abcdefgh")
                         "What is EC2?" (Some "Be concise.") fresh _ _
                         eq_refl))).
Defined.

(** C6: a new instance has [total_tokens_used = 0] and
    [total_cost_incurred = 0.0], and along any sequence of
    [generate_response], [get_fiscal_summary] and [check_connection] calls,
    whatever the engine does at each of them, neither field is ever smaller
    after more calls than after fewer. *)
Theorem C6_ledger_monotone (model host : string)
    (earlier later : list (Client * Operation)) :
  total_tokens_used (init model host) = 0
  /\ total_cost_incurred (init model host) = PyFloat.zero
  /\ total_tokens_used (run earlier (init model host))
     <= total_tokens_used (run (earlier ++ later) (init model host))
  /\ PyFloat.leb
       (total_cost_incurred (run earlier (init model host)))
       (total_cost_incurred (run (earlier ++ later) (init model host)))
     = true.
Proof.
  split; [reflexivity |]. split; [reflexivity |].
  assert (Happ : forall ops1 ops2 self,
             run (ops1 ++ ops2) self = run ops2 (run ops1 self)).
  { induction ops1 as [| [c op] ops1 IH]; intros ops2 self; cbn;
      [reflexivity | apply IH]. }
  rewrite Happ.
  destruct (run_ledger earlier _ (init_ledger_ok model host)) as (Hok & _ & _).
  destruct (run_ledger later _ Hok) as (_ & Ht & Hc).
  split; assumption.
Qed.

(** C7: the estimator is monotone in the length of its input: if
    [len(s) <= len(t)] then the token estimate and the cost for [s] are at
    most those for [t]; and for every string the estimate is at least one
    token and the cost at least the cost of one token. *)
Theorem C7_estimator_monotone (s t : string) :
  len s <= len t ->
  fst (calculate_simulated_cost s) <= fst (calculate_simulated_cost t)
  /\ PyFloat.leb (snd (calculate_simulated_cost s))
                 (snd (calculate_simulated_cost t)) = true
  /\ 1 <= fst (calculate_simulated_cost s)
  /\ PyFloat.leb (cost_of_tokens 1) (snd (calculate_simulated_cost s)) = true.
Proof.
  intros Hlen. rewrite !calculate_simulated_cost_eq. cbn [fst snd].
  assert (Hdiv : len s / CHARS_PER_TOKEN <= len t / CHARS_PER_TOKEN).
  { apply Z.div_le_mono; [reflexivity | exact Hlen]. }
  repeat split.
  - lia.
  - apply cost_of_tokens_mono; lia.
  - lia.
  - apply cost_of_tokens_mono; lia.
Qed.

Lemma C7_estimator_monotone_witness :
  len "Hello world!" <= len "This is a test string for token estimation."
  /\ fst (calculate_simulated_cost "Hello world!")
     <= fst (calculate_simulated_cost
               "This is a test string for token estimation.").
Proof.
  split; [vm_compute; discriminate |].
  refine (proj1 (C7_estimator_monotone "Hello world!"
                   "This is a test string for token estimation." _)).
  vm_compute. discriminate.
Defined.

(** C8: [check_connection] never raises: it returns [True] when the
    engine's model listing succeeds and [False] whatever exception the
    listing raises, and it leaves the instance as it was. *)
Theorem C8_check_connection_total (client : Client) (self : LLMBrain) :
  check_connection client self
  = (Returned (match list_models client with
               | inr _ => true
               | inl _ => false
               end), self).
Proof.
  unfold check_connection, try_except, bind, call, raise, ret.
  destruct (list_models client); reflexivity.
Qed.

(** C9: [generate_response] with [system_message = ""] is the same call as
    with no [system_message]: the message list is the single user message,
    the input text is the prompt, and for every engine and instance the
    outcome and the instance afterwards coincide. *)
Theorem C9_empty_system_message_is_none
    (client : Client) (prompt : string) (self : LLMBrain) :
  build_messages prompt (Some "") = [ {| role := "user"; content := prompt |} ]
  /\ build_messages prompt None = [ {| role := "user"; content := prompt |} ]
  /\ input_text prompt (Some "") = prompt
  /\ generate_response client prompt (Some "") self
     = generate_response client prompt None self.
Proof. repeat split. Qed.

(** C10: a result returned by [generate_response] has
    [estimated_tokens >= 2] and [simulated_cost > 0]: each side is at least
    one token, also for an empty prompt or an empty reply. *)
Theorem C10_result_at_least_two_tokens
    client prompt system_message self r self' :
  generate_response client prompt system_message self = (Returned r, self') ->
  2 <= estimated_tokens r
  /\ PyFloat.ltb PyFloat.zero (simulated_cost r) = true.
Proof.
  intros H.
  destruct (generate_response_returned _ _ _ _ _ _ H)
    as (response & _ & _ & Htok & Hcost & _).
  pose proof (tokens_ge_1 (input_text prompt system_message)) as Hin.
  pose proof (tokens_ge_1 (text r)) as Hout.
  split; [lia |]. rewrite Hcost.
  apply (FloatFacts.ltb_zero_le
           (snd (calculate_simulated_cost (input_text prompt system_message)))).
  - apply call_cost_nonneg.
  - rewrite calculate_simulated_cost_eq. cbn [snd].
    apply cost_of_tokens_pos. lia.
  - apply FloatFacts.add_nonneg_le; apply simulated_cost_nonneg.
Qed.

Lemma C10_result_at_least_two_tokens_witness :
  generate_response (replying "") "" None fresh
  = (Returned {| text := ""; estimated_tokens := 2;
                 simulated_cost := PyFloat.add (cost_of_tokens 1)
                                               (cost_of_tokens 1);
                 response_model := DEFAULT_MODEL |},
     {| model := DEFAULT_MODEL; host := OLLAMA_HOST;
        total_tokens_used := 2;
        total_cost_incurred :=
          PyFloat.add PyFloat.zero
                      (PyFloat.add (cost_of_tokens 1) (cost_of_tokens 1)) |})
  /\ 2 <= 2.
Proof.
  split; [reflexivity |].
  exact (proj1 (C10_result_at_least_two_tokens (replying "") "" None fresh
                  _ _ eq_refl)).
Defined.
